(** * Taxyman: progressive slab tax under the 2024-25 and 2025-26 new regimes

    A shallow embedding of the computational core of [taxyman.py]
    ([calculate_tax], the two regime functions and [tax_calculator]) and the
    properties of its specification.

    Numbers.  The Python program computes on [int] and [float] values.  Money
    amounts and rates are embedded as exact rationals ([Q]): [0.05] is the
    rational 5/100, and arithmetic does not round.  [float('inf')], the upper
    bound of the last slab, is the constructor [Inf] of [bound].  Equalities
    between computed amounts are stated with [==] ([Qeq]) unless the two sides
    are built by the very same operations, where Leibniz equality holds.
    Module [Binary64] transcribes the tax functions a second time on IEEE 754
    binary64 numbers, as CPython computes them, so that the figures of the
    specification can also be checked bit for bit.  Rounding is invisible on
    the incomes the interface offers but not on all numbers: where a
    property of the exact functions is broken by binary64 rounding at some
    far larger income, the counterexample is computed in [Binary64] and the
    property is stated for incomes up to 10,000,000, the maximum of the
    interface.

    Presentation.  The HTML fragments, the pandas styling, the plotly figures
    and the gradio layout carry no logic of their own; the embedding keeps the
    values they are rendered from. *)

From Stdlib Require Import QArith Qminmax Lqa ZArith Lia List String Bool.
From Stdlib Require Import Qround Sorted.
From Stdlib Require PrimFloat.
Import ListNotations.
Import PrimFloat.

Local Open Scope Q_scope.

(** ** Python primitives used by the program *)

(** A slab bound: a finite amount, or [float('inf')]. *)
Inductive bound : Type :=
| Fin (q : Q)
| Inf.

(** [max(a, b)] returns its first argument unless the second is strictly
    larger. *)
Definition py_max (a b : Q) : Q :=
  if Qlt_le_dec a b then b else a.

(** [min(income, slab)]: the first argument unless the second is strictly
    smaller; nothing is smaller than [income] when [slab] is infinite. *)
Definition py_min (income : Q) (slab : bound) : Q :=
  match slab with
  | Fin s => if Qlt_le_dec s income then s else income
  | Inf => income
  end.

(** [income > prev_slab]. *)
Definition py_gt (income : Q) (prev_slab : bound) : bool :=
  match prev_slab with
  | Fin p => if Qlt_le_dec p income then true else false
  | Inf => false
  end.

(** [int(x)]: truncation toward zero. *)
Definition py_int (x : Q) : Z :=
  Z.quot (Qnum x) (Zpos (Qden x)).

(** [range(start, stop, step)] for a positive [step]: the values
    [start + i * step] below [stop]; their number is
    [ceil((stop - start) / step)], or zero when [stop <= start]. *)
Definition range (start stop step : Z) : list Z :=
  map (fun i => (start + Z.of_nat i * step)%Z)
      (seq 0 (Z.to_nat ((stop - start + step - 1) / step))).

(** [a / b], which raises [ZeroDivisionError] (here [None]) when [b] is zero,
    for floats as for integers. *)
Definition py_div (a b : Q) : option Q :=
  if Qeq_bool b 0 then None else Some (a / b).

(** ** Tax calculation functions *)

(** One row of the breakdown table.  The "Slab Range" and "Rate" cells are
    kept as the values they are formatted from. *)
Record row : Type := {
  Slab_Range : bound * bound;
  Taxable_Amount : Q;
  Rate : Q;
  Tax : Q
}.

(** The variables updated by the loop of [calculate_tax]. *)
Record loop_state : Type := {
  tax : Q;
  prev_slab : bound;
  breakdown : list row
}.

(** The body of [for slab, rate in slabs]. *)
Definition slab_step (income : Q) (st : loop_state) (s : bound * Q)
  : loop_state :=
  let (slab, rate) := s in
  match prev_slab st with
  | Fin p =>
      if Qlt_le_dec p income then
        let slab_amount := py_min income slab - p in
        let slab_tax := slab_amount * rate in
        {| tax := tax st + slab_tax;
           prev_slab := slab;
           breakdown := breakdown st ++
             [ {| Slab_Range := (Fin p, slab);
                  Taxable_Amount := slab_amount;
                  Rate := rate;
                  Tax := slab_tax |} ] |}
      else st
  | Inf => st
  end.

Definition init_state : loop_state :=
  {| tax := 0; prev_slab := Fin 0; breakdown := [] |}.

Definition calculate_tax (income : Q) (slabs : list (bound * Q))
  : Q * list row :=
  let st := fold_left (slab_step income) slabs init_state in
  (tax st, breakdown st).

Definition slabs_2024_25 : list (bound * Q) :=
  [ (Fin 300000, 0);
    (Fin 700000, 0.05);
    (Fin 1000000, 0.10);
    (Fin 1200000, 0.15);
    (Fin 1500000, 0.20);
    (Inf, 0.30) ].

Definition slabs_2025_26 : list (bound * Q) :=
  [ (Fin 400000, 0);
    (Fin 800000, 0.05);
    (Fin 1200000, 0.10);
    (Fin 1600000, 0.15);
    (Fin 2000000, 0.20);
    (Fin 2400000, 0.25);
    (Inf, 0.30) ].

Definition calculate_new_regime_2024_25 (income : Q) : Q * list row :=
  let taxable_income := py_max (income - 75000) 0 in
  calculate_tax taxable_income slabs_2024_25.

Definition calculate_new_regime_2025_26 (income : Q) : Q * list row :=
  let taxable_income := py_max (income - 75000) 0 in
  calculate_tax taxable_income slabs_2025_26.

(** ** The gradio callback *)

Inductive recommendation : Type :=
| Switch_to_2025_26_Regime
| Stick_to_2024_25_Regime.

(** One entry of [bracket_savings]. *)
Record bracket_row : Type := {
  Income_Bracket : Z * Z;
  Tax_2024_25 : Q;
  Tax_2025_26 : Q;
  Savings : Q
}.

(** [income_brackets = range(0, int(income) + 100_000, 100_000)]. *)
Definition income_brackets (income : Q) : list Z :=
  range 0 (py_int income + 100000) 100000.

(** The loop filling [bracket_savings]. *)
Definition bracket_savings (income : Q) : list bracket_row :=
  map (fun bracket : Z =>
         let old_tax_bracket := fst (calculate_new_regime_2024_25 (inject_Z bracket)) in
         let new_tax_bracket := fst (calculate_new_regime_2025_26 (inject_Z bracket)) in
         {| Income_Bracket := (bracket, (bracket + 100000)%Z);
            Tax_2024_25 := old_tax_bracket;
            Tax_2025_26 := new_tax_bracket;
            Savings := old_tax_bracket - new_tax_bracket |})
      (income_brackets income).

(** The conditional inside the recommendation bar. *)
Definition recommend (savings : Q) : recommendation :=
  if Qlt_le_dec 0 savings then Switch_to_2025_26_Regime
  else Stick_to_2024_25_Regime.

(** What the seven outputs of a successful call are rendered from. *)
Record report : Type := {
  rep_recommendation : recommendation;
  rep_old_tax : Q;
  rep_new_tax : Q;
  rep_savings : Q;
  rep_savings_percent : Q;
  rep_old_df : list row;
  rep_new_df : list row;
  rep_bracket_savings : list bracket_row
}.

(** How a call of [tax_calculator] ends: the early return with the error
    message, an uncaught [ZeroDivisionError], or the tuple of outputs. *)
Inductive outcome : Type :=
| Invalid_income_input (message : string)
| ZeroDivisionError
| Rendered (r : report).

(** The message of the early return (after its leading cross-mark emoji). *)
Definition error_message : string := "Error: Invalid income input!".

(** [tax_calculator(income)]; [None] is Python's [None].  The percentage
    [savings/old_tax*100] is evaluated while the recommendation bar is
    formatted, before the bracket loop runs. *)
Definition tax_calculator (income : option Q) : outcome :=
  match income with
  | None => Invalid_income_input error_message
  | Some income =>
      if Qlt_le_dec income 0 then Invalid_income_input error_message
      else
        let (old_tax, old_df) := calculate_new_regime_2024_25 income in
        let (new_tax, new_df) := calculate_new_regime_2025_26 income in
        let savings := old_tax - new_tax in
        match py_div savings old_tax with
        | None => ZeroDivisionError
        | Some ratio =>
            Rendered
              {| rep_recommendation := recommend savings;
                 rep_old_tax := old_tax;
                 rep_new_tax := new_tax;
                 rep_savings := savings;
                 rep_savings_percent := ratio * 100;
                 rep_old_df := old_df;
                 rep_new_df := new_df;
                 rep_bracket_savings := bracket_savings income |}
        end
  end.

(** Column totals, as [sum] computes them: left to right from zero. *)
Definition column_sum (col : row -> Q) (df : list row) : Q :=
  fold_left (fun acc r => acc + col r) df 0.

(** ** Well-formed slab tables *)

(** [a < b] on bounds; nothing lies above [float('inf')]. *)
Definition bound_ltb (a b : bound) : bool :=
  match a, b with
  | Fin x, Fin y => if Qlt_le_dec x y then true else false
  | Fin _, Inf => true
  | Inf, _ => false
  end.

(** Upper bounds strictly increase from [prev] on and no rate is negative. *)
Fixpoint progressive (prev : bound) (slabs : list (bound * Q)) : bool :=
  match slabs with
  | [] => true
  | (slab, rate) :: rest =>
      bound_ltb prev slab && Qle_bool 0 rate && progressive slab rest
  end.

(** Some slab has no upper bound. *)
Fixpoint unbounded (slabs : list (bound * Q)) : bool :=
  match slabs with
  | [] => false
  | (Inf, _) :: _ => true
  | (Fin _, _) :: rest => unbounded rest
  end.

(** The state after a slab has been entered from lower bound [p]. *)
Definition entered (income : Q) (st : loop_state) (p : Q) (slab : bound)
  (rate : Q) : loop_state :=
  {| tax := tax st + (py_min income slab - p) * rate;
     prev_slab := slab;
     breakdown := breakdown st ++
       [ {| Slab_Range := (Fin p, slab);
            Taxable_Amount := py_min income slab - p;
            Rate := rate;
            Tax := (py_min income slab - p) * rate |} ] |}.

(** ** The tax functions on binary64 numbers

    The same functions with Python's [float] arithmetic: every number is a
    binary64 value, the literals [0.05], [0.10], ... are rounded to the
    nearest one as Python's parser does, and [float('inf')] is [infinity].
    The integers the program mixes in (the initial [0]s, the zero rate, the
    bounds) are far below 2^53 and convert exactly. *)
Module Binary64.

Local Open Scope float_scope.

Definition py_max (a b : float) : float := if a <? b then b else a.

Definition py_min (a b : float) : float := if b <? a then b else a.

Record row : Type := {
  Slab_Range : float * float;
  Taxable_Amount : float;
  Rate : float;
  Tax : float
}.

Record loop_state : Type := {
  tax : float;
  prev_slab : float;
  breakdown : list row
}.

Definition slab_step (income : float) (st : loop_state) (s : float * float)
  : loop_state :=
  let (slab, rate) := s in
  if prev_slab st <? income then
    let slab_amount := py_min income slab - prev_slab st in
    let slab_tax := slab_amount * rate in
    {| tax := tax st + slab_tax;
       prev_slab := slab;
       breakdown := breakdown st ++
         [ {| Slab_Range := (prev_slab st, slab);
              Taxable_Amount := slab_amount;
              Rate := rate;
              Tax := slab_tax |} ] |}
  else st.

Definition calculate_tax (income : float) (slabs : list (float * float))
  : float * list row :=
  let st := fold_left (slab_step income) slabs
              {| tax := 0; prev_slab := 0; breakdown := [] |} in
  (tax st, breakdown st).

#[warnings="-inexact-float"]
Definition slabs_2024_25 : list (float * float) :=
  [ (300000, 0);
    (700000, 0.05);
    (1000000, 0.10);
    (1200000, 0.15);
    (1500000, 0.20);
    (infinity, 0.30) ].

#[warnings="-inexact-float"]
Definition slabs_2025_26 : list (float * float) :=
  [ (400000, 0);
    (800000, 0.05);
    (1200000, 0.10);
    (1600000, 0.15);
    (2000000, 0.20);
    (2400000, 0.25);
    (infinity, 0.30) ].

Definition calculate_new_regime_2024_25 (income : float) : float * list row :=
  let taxable_income := py_max (income - 75000) 0 in
  calculate_tax taxable_income slabs_2024_25.

Definition calculate_new_regime_2025_26 (income : float) : float * list row :=
  let taxable_income := py_max (income - 75000) 0 in
  calculate_tax taxable_income slabs_2025_26.

(** The conditional inside the recommendation bar. *)
Definition recommend (savings : float) : recommendation :=
  if 0 <? savings then Switch_to_2025_26_Regime
  else Stick_to_2024_25_Regime.

(** Column totals, left to right from zero. *)
Definition column_sum (col : row -> float) (df : list row) : float :=
  fold_left (fun acc r => acc + col r) df 0.

End Binary64.

(** ** Auxiliary definitions for the further properties *)

(** No rate of the table exceeds [r]. *)
Definition rates_at_most (r : Q) (slabs : list (bound * Q)) : bool :=
  forallb (fun s => Qle_bool (snd s) r) slabs.

(** The part of [t] that lies between [lo] and [hi]. *)
Definition clamp (t lo hi : Q) : Q :=
  py_min t (Fin hi) - py_min t (Fin lo).

(** The gap between the two tables as a sum of bands: between two consecutive
    bounds of either table the 2024-25 rate exceeds the 2025-26 rate by the
    factor written in front of the band. *)
Definition savings_curve (t : Q) : Q :=
  0.05 * clamp t 300000 400000
  + 0.05 * clamp t 700000 800000
  + 0.05 * clamp t 1000000 1500000
  + 0.15 * clamp t 1500000 1600000
  + 0.10 * clamp t 1600000 2000000
  + 0.05 * clamp t 2000000 2400000.

(** [float(n)] for a Python integer [n]; exact below 2^53. *)
Fixpoint float_of_pos (p : positive) : float :=
  match p with
  | xH => 1%float
  | xO q => (2 * float_of_pos q)%float
  | xI q => (2 * float_of_pos q + 1)%float
  end.

Definition float_of_Z (z : Z) : float :=
  match z with
  | Z0 => 0%float
  | Zpos p => float_of_pos p
  | Zneg p => (- float_of_pos p)%float
  end.

(** The incomes the slider can be set to: [minimum=0], [maximum=10_000_000],
    [step=50_000]. *)
Definition slider_incomes : list Z :=
  map (fun k => (50000 * Z.of_nat k)%Z) (seq 0 201).

(** At [income] the exact taxes are whole numbers and the binary64 taxes are
    those very numbers. *)
Definition binary64_agrees (income : Z) : bool :=
  let old_tax := fst (calculate_new_regime_2024_25 (inject_Z income)) in
  let new_tax := fst (calculate_new_regime_2025_26 (inject_Z income)) in
  Qeq_bool old_tax (inject_Z (py_int old_tax))
  && Qeq_bool new_tax (inject_Z (py_int new_tax))
  && (fst (Binary64.calculate_new_regime_2024_25 (float_of_Z income))
      =? float_of_Z (py_int old_tax))%float
  && (fst (Binary64.calculate_new_regime_2025_26 (float_of_Z income))
      =? float_of_Z (py_int new_tax))%float.

(** A row as the loop writes it for [income]: it starts at a finite bound
    below the income, taxes what of the income lies in its range, at its
    rate. *)
Definition row_of_income (income : Q) (r : row) : Prop :=
  exists lo, fst (Slab_Range r) = Fin lo /\ lo < income /\
    Taxable_Amount r = py_min income (snd (Slab_Range r)) - lo /\
    Tax r = Taxable_Amount r * Rate r.

(** At [income], in binary64: the 2025-26 tax is at most the 2024-25 tax, the
    savings are not negative, and the recommendation is to stick only if the
    two taxes are equal. *)
Definition binary64_savings_ok (income : Z) : bool :=
  let old_tax :=
    fst (Binary64.calculate_new_regime_2024_25 (float_of_Z income)) in
  let new_tax :=
    fst (Binary64.calculate_new_regime_2025_26 (float_of_Z income)) in
  (new_tax <=? old_tax)%float
  && (0 <=? old_tax - new_tax)%float
  && match Binary64.recommend (old_tax - new_tax)%float with
     | Switch_to_2025_26_Regime => true
     | Stick_to_2024_25_Regime => (old_tax =? new_tax)%float
     end.

(** In binary64 the "Taxable Amount" column of [df] adds up to [taxable] and
    all its entries are positive. *)
Definition binary64_partitions (taxable : float) (df : list Binary64.row)
  : bool :=
  (Binary64.column_sum Binary64.Taxable_Amount df =? taxable)%float
  && forallb (fun r => (0 <? Binary64.Taxable_Amount r)%float) df.

Definition binary64_partition_ok (income : Z) : bool :=
  let taxable := Binary64.py_max (float_of_Z income - 75000)%float 0%float in
  binary64_partitions taxable
    (snd (Binary64.calculate_new_regime_2024_25 (float_of_Z income)))
  && binary64_partitions taxable
       (snd (Binary64.calculate_new_regime_2025_26 (float_of_Z income))).

(** ** The loop of [calculate_tax], step by step *)

Section Loop.

Variable income : Q.

Lemma py_gt_true (p : Q) : py_gt income (Fin p) = true <-> p < income.
Proof.
  unfold py_gt. destruct (Qlt_le_dec p income) as [Hlt | Hle].
  - tauto.
  - split; [discriminate | intro Hlt; exfalso; lra].
Qed.

Lemma py_gt_false (p : Q) : py_gt income (Fin p) = false <-> income <= p.
Proof.
  unfold py_gt. destruct (Qlt_le_dec p income) as [Hlt | Hle].
  - split; [discriminate | intro Hle; exfalso; lra].
  - tauto.
Qed.

(** Each iteration either enters the slab or leaves the state untouched. *)
Lemma slab_step_cases (st : loop_state) (slab : bound) (rate : Q) :
  (exists p, prev_slab st = Fin p /\ p < income /\
             slab_step income st (slab, rate) = entered income st p slab rate)
  \/ (py_gt income (prev_slab st) = false /\
      slab_step income st (slab, rate) = st).
Proof.
  unfold slab_step, py_gt. destruct (prev_slab st) as [p | ].
  - destruct (Qlt_le_dec p income) as [Hlt | Hle].
    + left. exists p. repeat split; trivial.
    + right. split; reflexivity.
  - right. split; reflexivity.
Qed.

(** Once a slab is not entered, [prev_slab] stays put and no later slab is
    entered either. *)
Lemma loop_skip (slabs : list (bound * Q)) (st : loop_state) :
  py_gt income (prev_slab st) = false ->
  fold_left (slab_step income) slabs st = st.
Proof.
  intro Hgt. induction slabs as [ | [slab rate] rest IH]; cbn [fold_left].
  - reflexivity.
  - destruct (slab_step_cases st slab rate) as [(p & Hp & Hlt & _) | [_ Hst]].
    + rewrite Hp in Hgt. apply py_gt_false in Hgt. exfalso; lra.
    + rewrite Hst. exact IH.
Qed.

Lemma py_min_le_income (slab : bound) : py_min income slab <= income.
Proof.
  destruct slab as [s | ]; simpl.
  - destruct (Qlt_le_dec s income); lra.
  - lra.
Qed.

(** The amount taxed in an entered slab is strictly positive. *)
Lemma slab_amount_pos (p : Q) (slab : bound) :
  p < income -> bound_ltb (Fin p) slab = true -> 0 < py_min income slab - p.
Proof.
  intros Hlt Hb. destruct slab as [s | ]; simpl in *.
  - destruct (Qlt_le_dec p s) as [Hps | ]; [ | discriminate].
    destruct (Qlt_le_dec s income); lra.
  - lra.
Qed.

End Loop.

Lemma progressive_cons (prev slab : bound) (rate : Q)
  (rest : list (bound * Q)) :
  progressive prev ((slab, rate) :: rest) = true ->
  bound_ltb prev slab = true /\ 0 <= rate /\ progressive slab rest = true.
Proof.
  simpl. intro H.
  apply andb_true_iff in H. destruct H as [H Hrest].
  apply andb_true_iff in H. destruct H as [Hb Hrate].
  apply Qle_bool_iff in Hrate. auto.
Qed.

Lemma column_sum_snoc (col : row -> Q) (df : list row) (r : row) :
  column_sum col (df ++ [r]) = column_sum col df + col r.
Proof.
  unfold column_sum. rewrite fold_left_app. reflexivity.
Qed.

(** ** Invariants of the loop *)

Section Invariants.

Variable income : Q.

Local Abbreviation run := (fold_left (slab_step income)).

(** The "Tax" column always adds up to the running total. *)
Lemma loop_tax_column (slabs : list (bound * Q)) :
  forall st, column_sum Tax (breakdown st) = tax st ->
  column_sum Tax (breakdown (run slabs st)) = tax (run slabs st).
Proof.
  induction slabs as [ | [slab rate] rest IH]; intros st Hst; cbn [fold_left].
  - exact Hst.
  - apply IH.
    destruct (slab_step_cases income st slab rate)
      as [(p & _ & _ & Hstep) | [_ Hstep]]; rewrite Hstep.
    + simpl. rewrite column_sum_snoc, Hst. reflexivity.
    + exact Hst.
Qed.

(** The running total never decreases. *)
Lemma loop_tax_ge (slabs : list (bound * Q)) :
  forall st, progressive (prev_slab st) slabs = true ->
  tax st <= tax (run slabs st).
Proof.
  induction slabs as [ | [slab rate] rest IH]; intros st Hwf; cbn [fold_left].
  - lra.
  - destruct (slab_step_cases income st slab rate)
      as [(p & Hp & Hlt & Hstep) | [Hgt Hstep]]; rewrite Hstep.
    + rewrite Hp in Hwf. apply progressive_cons in Hwf.
      destruct Hwf as (Hb & Hrate & Hrest).
      pose proof (slab_amount_pos income p slab Hlt Hb) as Hpos.
      apply Qle_trans with (tax (entered income st p slab rate)).
      * simpl. nra.
      * apply IH. exact Hrest.
    + rewrite loop_skip by exact Hgt. lra.
Qed.

(** Every row has a strictly positive "Taxable Amount". *)
Lemma loop_amounts_pos (slabs : list (bound * Q)) :
  forall st, progressive (prev_slab st) slabs = true ->
  Forall (fun r => 0 < Taxable_Amount r) (breakdown st) ->
  Forall (fun r => 0 < Taxable_Amount r) (breakdown (run slabs st)).
Proof.
  induction slabs as [ | [slab rate] rest IH]; intros st Hwf Hst; cbn [fold_left].
  - exact Hst.
  - destruct (slab_step_cases income st slab rate)
      as [(p & Hp & Hlt & Hstep) | [Hgt Hstep]]; rewrite Hstep.
    + rewrite Hp in Hwf. apply progressive_cons in Hwf.
      destruct Hwf as (Hb & _ & Hrest).
      apply IH; [exact Hrest | ].
      simpl. apply Forall_app. split; [exact Hst | ].
      constructor; [ | constructor].
      simpl. apply slab_amount_pos; assumption.
    + rewrite loop_skip by exact Hgt. exact Hst.
Qed.

(** The "Taxable Amount" column adds what of [income] lies above the bound
    the loop starts from. *)
Lemma loop_amount_column (slabs : list (bound * Q)) :
  forall st p, prev_slab st = Fin p -> unbounded slabs = true ->
  column_sum Taxable_Amount (breakdown (run slabs st)) ==
  column_sum Taxable_Amount (breakdown st)
  + (if Qlt_le_dec p income then income - p else 0).
Proof.
  induction slabs as [ | [slab rate] rest IH]; intros st p Hp Hunb.
  - discriminate.
  - cbn [fold_left].
    destruct (slab_step_cases income st slab rate)
      as [(p' & Hp' & Hlt & Hstep) | [Hgt Hstep]]; rewrite Hstep.
    + rewrite Hp in Hp'. injection Hp' as <-.
      destruct (Qlt_le_dec p income) as [_ | Hle]; [ | exfalso; lra].
      destruct slab as [s | ].
      * simpl in Hunb. simpl py_min.
        destruct (Qlt_le_dec s income) as [Hs | Hs].
        -- rewrite (IH (entered income st p (Fin s) rate) s eq_refl Hunb).
           destruct (Qlt_le_dec s income) as [_ | Hle]; [ | exfalso; lra].
           simpl breakdown. rewrite column_sum_snoc. simpl.
           destruct (Qlt_le_dec s income) as [_ | Hle]; [ | exfalso; lra].
           ring.
        -- rewrite loop_skip.
           ++ simpl breakdown. rewrite column_sum_snoc. simpl.
              destruct (Qlt_le_dec s income) as [Hlt' | _]; [exfalso; lra | ].
              reflexivity.
           ++ simpl. apply py_gt_false. exact Hs.
      * rewrite loop_skip by reflexivity.
        simpl breakdown. rewrite column_sum_snoc. reflexivity.
    + rewrite loop_skip by exact Hgt.
      rewrite Hp in Hgt. apply py_gt_false in Hgt.
      destruct (Qlt_le_dec p income) as [Hlt | _]; [exfalso; lra | ring].
Qed.

End Invariants.

(** The running total grows with the income. *)
Lemma loop_tax_mono (income1 income2 : Q) (slabs : list (bound * Q)) :
  income1 <= income2 ->
  forall st1 st2,
  prev_slab st1 = prev_slab st2 ->
  progressive (prev_slab st2) slabs = true ->
  tax st1 <= tax st2 ->
  tax (fold_left (slab_step income1) slabs st1) <=
  tax (fold_left (slab_step income2) slabs st2).
Proof.
  intro Hinc.
  induction slabs as [ | [slab rate] rest IH]; intros st1 st2 Hprev Hwf Htax.
  - exact Htax.
  - cbn [fold_left].
    destruct (slab_step_cases income1 st1 slab rate)
      as [(p & Hp & Hlt & Hstep) | [Hgt Hstep]]; rewrite Hstep.
    + assert (Hp2 : prev_slab st2 = Fin p) by congruence.
      destruct (slab_step_cases income2 st2 slab rate)
        as [(p2 & Hp2' & Hlt2 & Hstep2) | [Hgt2 _]].
      * rewrite Hstep2. rewrite Hp2 in Hp2'. injection Hp2' as <-.
        rewrite Hp2 in Hwf. apply progressive_cons in Hwf.
        destruct Hwf as (Hb & Hrate & Hrest).
        apply IH; [reflexivity | exact Hrest | ].
        simpl.
        assert (Hmin : py_min income1 slab <= py_min income2 slab).
        { destruct slab as [s | ]; simpl; [ | exact Hinc].
          destruct (Qlt_le_dec s income1), (Qlt_le_dec s income2); lra. }
        nra.
      * rewrite Hp2 in Hgt2. apply py_gt_false in Hgt2. exfalso; lra.
    + rewrite (loop_skip income1) by exact Hgt.
      apply Qle_trans with (tax st2); [exact Htax | ].
      apply (loop_tax_ge income2 (((slab, rate) :: rest))). exact Hwf.
Qed.

(** The loop only ever appends rows. *)
Lemma loop_appends (income : Q) (slabs : list (bound * Q)) :
  forall st, exists rows,
  breakdown (fold_left (slab_step income) slabs st) = breakdown st ++ rows.
Proof.
  induction slabs as [ | [slab rate] rest IH]; intro st; cbn [fold_left].
  - exists []. symmetry. apply app_nil_r.
  - destruct (IH (slab_step income st (slab, rate))) as [rows Hrows].
    rewrite Hrows.
    destruct (slab_step_cases income st slab rate)
      as [(p & _ & _ & Hstep) | [_ Hstep]]; rewrite Hstep.
    + simpl. rewrite <- app_assoc. eexists. reflexivity.
    + exists rows. reflexivity.
Qed.

(** ** Rewriting the loop one slab at a time *)

Lemma run_enter (income p : Q) (st : loop_state) (slab : bound) (rate : Q)
  (rest : list (bound * Q)) :
  prev_slab st = Fin p -> p < income ->
  fold_left (slab_step income) ((slab, rate) :: rest) st =
  fold_left (slab_step income) rest (entered income st p slab rate).
Proof.
  intros Hp Hlt. cbn [fold_left].
  destruct (slab_step_cases income st slab rate)
    as [(p' & Hp' & _ & Hstep) | [Hgt _]].
  - rewrite Hstep. congruence.
  - rewrite Hp in Hgt. apply py_gt_false in Hgt. exfalso; lra.
Qed.

Lemma run_stop (income p : Q) (st : loop_state) (slabs : list (bound * Q)) :
  prev_slab st = Fin p -> income <= p ->
  fold_left (slab_step income) slabs st = st.
Proof.
  intros Hp Hle. apply loop_skip. rewrite Hp. apply py_gt_false. exact Hle.
Qed.

Lemma run_inf (income : Q) (st : loop_state) (slabs : list (bound * Q)) :
  prev_slab st = Inf ->
  fold_left (slab_step income) slabs st = st.
Proof.
  intro Hp. apply loop_skip. rewrite Hp. reflexivity.
Qed.

Lemma py_min_below (income s : Q) : income <= s -> py_min income (Fin s) = income.
Proof.
  intro H. simpl. destruct (Qlt_le_dec s income); [exfalso; lra | reflexivity].
Qed.

Lemma py_min_above (income s : Q) : s < income -> py_min income (Fin s) = s.
Proof.
  intro H. simpl. destruct (Qlt_le_dec s income); [reflexivity | exfalso; lra].
Qed.

(** Walks the loop through a concrete table when the hypotheses locate
    [income] between two consecutive bounds. *)
Ltac walk_slabs :=
  repeat first
    [ erewrite run_enter by (first [reflexivity | lra])
    | erewrite run_stop by (first [reflexivity | lra])
    | rewrite run_inf by reflexivity ];
  cbn [fold_left tax breakdown prev_slab entered];
  repeat first
    [ rewrite py_min_above by lra
    | rewrite py_min_below by lra ];
  cbn [py_min].

Lemma py_max_nonneg (a : Q) : 0 <= py_max a 0.
Proof. unfold py_max. destruct (Qlt_le_dec a 0); lra. Qed.

Lemma py_max_mono (a b : Q) : a <= b -> py_max a 0 <= py_max b 0.
Proof.
  intro H. unfold py_max.
  destruct (Qlt_le_dec a 0), (Qlt_le_dec b 0); lra.
Qed.

Lemma py_max_Qmax (a : Q) : py_max a 0 == Qmax a 0.
Proof.
  unfold py_max. destruct (Qlt_le_dec a 0) as [Hlt | Hle].
  - rewrite Q.max_r by lra. reflexivity.
  - rewrite Q.max_l by lra. reflexivity.
Qed.

(** An income above 0 enters the first slab, whatever its rate, and the
    breakdown starts with that slab's row. *)
Lemma calculate_tax_first_row (income s rate : Q)
  (rest : list (bound * Q)) :
  0 < income ->
  exists rows,
    snd (calculate_tax income ((Fin s, rate) :: rest)) =
      {| Slab_Range := (Fin 0, Fin s);
         Taxable_Amount := py_min income (Fin s) - 0;
         Rate := rate;
         Tax := (py_min income (Fin s) - 0) * rate |} :: rows.
Proof.
  intro Hpos. unfold calculate_tax. cbn [snd].
  rewrite (run_enter income 0 init_state (Fin s) rate rest eq_refl Hpos).
  destruct (loop_appends income rest (entered income init_state 0 (Fin s) rate))
    as [rows Hrows].
  rewrite Hrows. exists rows. reflexivity.
Qed.

(** ** The two tables *)

Lemma slabs_2024_25_progressive : progressive (Fin 0) slabs_2024_25 = true.
Proof. reflexivity. Qed.

Lemma slabs_2025_26_progressive : progressive (Fin 0) slabs_2025_26 = true.
Proof. reflexivity. Qed.

Lemma slabs_2024_25_unbounded : unbounded slabs_2024_25 = true.
Proof. reflexivity. Qed.

Lemma slabs_2025_26_unbounded : unbounded slabs_2025_26 = true.
Proof. reflexivity. Qed.

(** ** Properties of [calculate_tax] on any well-formed table *)

Section CalculateTax.

Variable slabs : list (bound * Q).
Hypothesis slabs_progressive : progressive (Fin 0) slabs = true.

Lemma calculate_tax_column (income : Q) :
  column_sum Tax (snd (calculate_tax income slabs)) =
  fst (calculate_tax income slabs).
Proof.
  unfold calculate_tax. cbn [fst snd].
  apply loop_tax_column. reflexivity.
Qed.

Lemma calculate_tax_nonneg (income : Q) :
  0 <= fst (calculate_tax income slabs).
Proof.
  unfold calculate_tax. cbn [fst].
  apply (loop_tax_ge income slabs init_state). exact slabs_progressive.
Qed.

Lemma calculate_tax_mono (income1 income2 : Q) :
  income1 <= income2 ->
  fst (calculate_tax income1 slabs) <= fst (calculate_tax income2 slabs).
Proof.
  intro H. unfold calculate_tax. cbn [fst].
  apply loop_tax_mono; trivial. simpl. lra.
Qed.

Lemma calculate_tax_amounts_pos (income : Q) :
  Forall (fun r => 0 < Taxable_Amount r) (snd (calculate_tax income slabs)).
Proof.
  unfold calculate_tax. cbn [snd].
  apply loop_amounts_pos; [exact slabs_progressive | constructor].
Qed.

Lemma calculate_tax_partition (income : Q) :
  unbounded slabs = true -> 0 <= income ->
  column_sum Taxable_Amount (snd (calculate_tax income slabs)) == income.
Proof.
  intros Hunb Hinc. unfold calculate_tax. cbn [snd].
  rewrite (loop_amount_column income slabs init_state 0 eq_refl Hunb).
  unfold column_sum. simpl.
  destruct (Qlt_le_dec 0 income); lra.
Qed.

End CalculateTax.

(** ** The 2025-26 table against the 2024-25 table *)

(** On every taxable income the 2025-26 slabs charge at most what the
    2024-25 slabs charge.  The two tables change rate at ten bounds; between
    two consecutive ones both taxes are linear. *)
Lemma calculate_tax_2025_26_le_2024_25 (taxable_income : Q) :
  fst (calculate_tax taxable_income slabs_2025_26) <=
  fst (calculate_tax taxable_income slabs_2024_25).
Proof.
  unfold calculate_tax, slabs_2024_25, slabs_2025_26, init_state.
  cbn [fst].
  destruct (Qlt_le_dec 0 taxable_income); [ | walk_slabs; lra].
  destruct (Qlt_le_dec 300000 taxable_income); [ | walk_slabs; lra].
  destruct (Qlt_le_dec 400000 taxable_income); [ | walk_slabs; lra].
  destruct (Qlt_le_dec 700000 taxable_income); [ | walk_slabs; lra].
  destruct (Qlt_le_dec 800000 taxable_income); [ | walk_slabs; lra].
  destruct (Qlt_le_dec 1000000 taxable_income); [ | walk_slabs; lra].
  destruct (Qlt_le_dec 1200000 taxable_income); [ | walk_slabs; lra].
  destruct (Qlt_le_dec 1500000 taxable_income); [ | walk_slabs; lra].
  destruct (Qlt_le_dec 1600000 taxable_income); [ | walk_slabs; lra].
  destruct (Qlt_le_dec 2000000 taxable_income); [ | walk_slabs; lra].
  destruct (Qlt_le_dec 2400000 taxable_income); walk_slabs; lra.
Qed.

(** The 2024-25 tax vanishes exactly on taxable incomes inside the zero-rate
    slab. *)
Lemma calculate_tax_2024_25_zero (taxable_income : Q) :
  fst (calculate_tax taxable_income slabs_2024_25) == 0 <->
  taxable_income <= 300000.
Proof.
  unfold calculate_tax, slabs_2024_25, init_state. cbn [fst].
  destruct (Qlt_le_dec 0 taxable_income); [ | walk_slabs; split; intro; lra].
  destruct (Qlt_le_dec 300000 taxable_income);
    [ | walk_slabs; split; intro; lra].
  destruct (Qlt_le_dec 700000 taxable_income);
    [ | walk_slabs; split; intro; lra].
  destruct (Qlt_le_dec 1000000 taxable_income);
    [ | walk_slabs; split; intro; lra].
  destruct (Qlt_le_dec 1200000 taxable_income);
    [ | walk_slabs; split; intro; lra].
  destruct (Qlt_le_dec 1500000 taxable_income);
    walk_slabs; split; intro; lra.
Qed.

(** ** Integer part and bracket boundaries *)

Lemma py_int_nonneg (x : Q) : 0 <= x -> (0 <= py_int x)%Z.
Proof.
  intro H. unfold py_int. apply Z.quot_pos; [ | lia].
  unfold Qle in H. simpl in H. lia.
Qed.

Lemma py_int_inject_Z (z : Z) : py_int (inject_Z z) = z.
Proof. unfold py_int. simpl. apply Z.quot_1_r. Qed.

(** [range(0, n + 100_000, 100_000)] for [n >= 0]: the multiples of 100,000
    up to the first one that reaches [n]. *)
Lemma range_brackets (n : Z) :
  (0 <= n)%Z ->
  exists m : nat,
    range 0 (n + 100000) 100000 =
      map (fun k => (Z.of_nat k * 100000)%Z) (seq 0 (S m)) /\
    (Z.of_nat m * 100000 - 100000 < n <= Z.of_nat m * 100000)%Z.
Proof.
  intro Hn. exists (Z.to_nat ((n + 99999) / 100000)).
  assert (Hq : (0 <= (n + 99999) / 100000)%Z)
    by (apply Z.div_pos; lia).
  split.
  - unfold range.
    replace (n + 100000 - 0 + 100000 - 1)%Z
      with ((n + 99999) + 1 * 100000)%Z by lia.
    rewrite Z.div_add by lia.
    replace (Z.to_nat ((n + 99999) / 100000 + 1))
      with (S (Z.to_nat ((n + 99999) / 100000))) by lia.
    apply map_ext. intro k. lia.
  - rewrite Z2Nat.id by exact Hq.
    pose proof (Z.div_mod (n + 99999) 100000 ltac:(lia)) as Hdm.
    pose proof (Z.mod_pos_bound (n + 99999) 100000 ltac:(lia)) as Hmod.
    lia.
Qed.

(** ** What a successful call of [tax_calculator] returns *)

Lemma tax_calculator_rendered (income : Q) (r : report) :
  tax_calculator (Some income) = Rendered r ->
  0 <= income /\
  ~ fst (calculate_new_regime_2024_25 income) == 0 /\
  rep_old_tax r = fst (calculate_new_regime_2024_25 income) /\
  rep_new_tax r = fst (calculate_new_regime_2025_26 income) /\
  rep_savings r = fst (calculate_new_regime_2024_25 income)
                  - fst (calculate_new_regime_2025_26 income) /\
  rep_recommendation r = recommend (rep_savings r) /\
  rep_old_df r = snd (calculate_new_regime_2024_25 income) /\
  rep_new_df r = snd (calculate_new_regime_2025_26 income) /\
  rep_bracket_savings r = bracket_savings income.
Proof.
  unfold tax_calculator.
  destruct (Qlt_le_dec income 0) as [Hneg | Hle]; [discriminate | ].
  destruct (calculate_new_regime_2024_25 income) as [old_tax old_df].
  destruct (calculate_new_regime_2025_26 income) as [new_tax new_df].
  unfold py_div. cbn [fst snd].
  destruct (Qeq_bool old_tax 0) eqn:Hzero; [discriminate | ].
  intro Hr. injection Hr as <-. cbn.
  split; [exact Hle | ]. split; [ | repeat split].
  intro Heq. apply Qeq_bool_iff in Heq. congruence.
Qed.

(** ** Binary64 cross-checks *)

(** With floats too the 2024-25 tax is a zero divisor below the first taxed
    slab: at income 250,000 the only row is [175000.0 * 0]. *)
Lemma binary64_zero_tax_at_250000 :
  (fst (Binary64.calculate_new_regime_2024_25 250000%float) =? 0)%float = true /\
  (fst (Binary64.calculate_new_regime_2024_25 0%float) =? 0)%float = true.
Proof. split; reflexivity. Qed.

(** On the slider's incomes the binary64 taxes keep the order of the two
    regimes and the breakdowns partition the taxable income. *)
Lemma binary64_savings_ok_on_slider :
  forallb binary64_savings_ok slider_incomes = true.
Proof. vm_compute. reflexivity. Qed.

Lemma binary64_partition_ok_on_slider :
  forallb binary64_partition_ok slider_incomes = true.
Proof. vm_compute. reflexivity. Qed.

Lemma slider_income_in (k : nat) :
  (k <= 200)%nat -> In (50000 * Z.of_nat k)%Z slider_incomes.
Proof.
  intro Hk. unfold slider_incomes. apply in_map_iff.
  exists k. split; [reflexivity | apply in_seq; lia].
Qed.

Lemma binary64_savings_ok_true (income : Z) :
  binary64_savings_ok income = true ->
  let old_tax :=
    fst (Binary64.calculate_new_regime_2024_25 (float_of_Z income)) in
  let new_tax :=
    fst (Binary64.calculate_new_regime_2025_26 (float_of_Z income)) in
  (new_tax <=? old_tax)%float = true /\
  (0 <=? old_tax - new_tax)%float = true /\
  (Binary64.recommend (old_tax - new_tax)%float = Stick_to_2024_25_Regime ->
   (old_tax =? new_tax)%float = true).
Proof.
  unfold binary64_savings_ok.
  generalize (fst (Binary64.calculate_new_regime_2024_25 (float_of_Z income))).
  generalize (fst (Binary64.calculate_new_regime_2025_26 (float_of_Z income))).
  intros new_tax old_tax H. cbn zeta.
  apply andb_true_iff in H. destruct H as [H H3].
  apply andb_true_iff in H. destruct H as [H1 H2].
  split; [exact H1 | ]. split; [exact H2 | ].
  intro Hstick. rewrite Hstick in H3. exact H3.
Qed.

Lemma binary64_partition_ok_true (income : Z) :
  binary64_partition_ok income = true ->
  let taxable := Binary64.py_max (float_of_Z income - 75000)%float 0%float in
  binary64_partitions taxable
    (snd (Binary64.calculate_new_regime_2024_25 (float_of_Z income))) = true
  /\
  binary64_partitions taxable
    (snd (Binary64.calculate_new_regime_2025_26 (float_of_Z income))) = true.
Proof.
  unfold binary64_partition_ok. cbn zeta. intro H.
  apply andb_true_iff in H. exact H.
Qed.

(** The sweep of a successful call, boundary by boundary. *)
Lemma bracket_savings_entries (income : Q) :
  Forall (fun entry =>
            let b := fst (Income_Bracket entry) in
            Income_Bracket entry = (b, (b + 100000)%Z) /\
            Tax_2024_25 entry
              = fst (calculate_new_regime_2024_25 (inject_Z b)) /\
            Tax_2025_26 entry
              = fst (calculate_new_regime_2025_26 (inject_Z b)) /\
            Savings entry = Tax_2024_25 entry - Tax_2025_26 entry)
         (bracket_savings income).
Proof.
  unfold bracket_savings. apply Forall_forall. intros entry Hin.
  apply in_map_iff in Hin. destruct Hin as (b & <- & _).
  cbn [Income_Bracket Tax_2024_25 Tax_2025_26 Savings fst].
  repeat split.
Qed.

Lemma bracket_savings_boundaries (income : Q) :
  map (fun entry => fst (Income_Bracket entry)) (bracket_savings income)
  = income_brackets income.
Proof.
  unfold bracket_savings. rewrite map_map.
  cbn [Income_Bracket fst]. apply map_id.
Qed.

(** * The claims *)

(** C1.  The specification asks that a 2024-25 tax of zero be handled as a
    defined special case when the savings percentage is computed.  The code
    does not: for every income [>= 0] whose 2024-25 tax is zero, which are
    exactly the incomes up to 375,000, [tax_calculator] ends in an uncaught
    [ZeroDivisionError]. *)
Theorem zero_tax_raises_ZeroDivisionError (income : Q) :
  0 <= income ->
  (fst (calculate_new_regime_2024_25 income) == 0 <-> income <= 375000) /\
  (fst (calculate_new_regime_2024_25 income) == 0 ->
   tax_calculator (Some income) = ZeroDivisionError).
Proof.
  intro Hinc. split.
  - unfold calculate_new_regime_2024_25.
    rewrite calculate_tax_2024_25_zero.
    unfold py_max. destruct (Qlt_le_dec (income - 75000) 0); split; intro; lra.
  - intro Hzero. unfold tax_calculator.
    destruct (Qlt_le_dec income 0) as [Hneg | _]; [exfalso; lra | ].
    destruct (calculate_new_regime_2024_25 income) as [old_tax old_df].
    destruct (calculate_new_regime_2025_26 income) as [new_tax new_df].
    cbn [fst] in Hzero. unfold py_div.
    apply Qeq_bool_iff in Hzero. rewrite Hzero. reflexivity.
Qed.

Lemma zero_tax_raises_ZeroDivisionError_witness :
  0 <= 0 /\ tax_calculator (Some 0) = ZeroDivisionError.
Proof.
  split; [lra | ].
  apply (zero_tax_raises_ZeroDivisionError 0); [lra | reflexivity].
Defined.

(** C2, as amended.  For income 0 each regime returns a total tax of 0 and an
    empty breakdown: no slab is entered, since the taxable income 0 is not
    above the first lower bound 0.  A row is appended for every slab that is
    entered, also when its tax is 0: for every income above 75,000 the
    breakdown starts with the row of the zero-rate slab, whose tax is 0. *)
Theorem zero_income_breakdown_is_empty :
  calculate_new_regime_2024_25 0 = (0, []) /\
  calculate_new_regime_2025_26 0 = (0, []) /\
  (forall income, 75000 < income ->
     exists r rest,
       snd (calculate_new_regime_2024_25 income) = r :: rest /\
       Slab_Range r = (Fin 0, Fin 300000) /\
       Taxable_Amount r == Qmin (income - 75000) 300000 /\
       Rate r = 0 /\ Tax r == 0) /\
  (forall income, 75000 < income ->
     exists r rest,
       snd (calculate_new_regime_2025_26 income) = r :: rest /\
       Slab_Range r = (Fin 0, Fin 400000) /\
       Taxable_Amount r == Qmin (income - 75000) 400000 /\
       Rate r = 0 /\ Tax r == 0).
Proof.
  split; [reflexivity | ]. split; [reflexivity | ].
  split; intros income Hinc.
  - unfold calculate_new_regime_2024_25, slabs_2024_25, py_max.
    destruct (Qlt_le_dec (income - 75000) 0) as [Hneg | _]; [exfalso; lra | ].
    destruct (calculate_tax_first_row (income - 75000) 300000 0
                (tl slabs_2024_25)) as [rows Hrows]; [lra | ].
    cbn [tl slabs_2024_25] in Hrows. rewrite Hrows.
    eexists. exists rows. split; [reflexivity | ].
    cbn [Slab_Range Taxable_Amount Rate Tax py_min].
    repeat split; try lra.
    destruct (Qlt_le_dec 300000 (income - 75000)).
    + rewrite Q.min_r by lra. lra.
    + rewrite Q.min_l by lra. lra.
  - unfold calculate_new_regime_2025_26, slabs_2025_26, py_max.
    destruct (Qlt_le_dec (income - 75000) 0) as [Hneg | _]; [exfalso; lra | ].
    destruct (calculate_tax_first_row (income - 75000) 400000 0
                (tl slabs_2025_26)) as [rows Hrows]; [lra | ].
    cbn [tl slabs_2025_26] in Hrows. rewrite Hrows.
    eexists. exists rows. split; [reflexivity | ].
    cbn [Slab_Range Taxable_Amount Rate Tax py_min].
    repeat split; try lra.
    destruct (Qlt_le_dec 400000 (income - 75000)).
    + rewrite Q.min_r by lra. lra.
    + rewrite Q.min_l by lra. lra.
Qed.

Lemma zero_income_breakdown_is_empty_witness :
  75000 < 100000 /\
  exists r rest,
    snd (calculate_new_regime_2024_25 100000) = r :: rest /\
    Slab_Range r = (Fin 0, Fin 300000) /\
    Taxable_Amount r == Qmin (100000 - 75000) 300000 /\
    Rate r = 0 /\ Tax r == 0.
Proof.
  split; [reflexivity | ].
  apply (proj1 (proj2 (proj2 zero_income_breakdown_is_empty)) 100000).
  reflexivity.
Defined.

(** C2, counterexample.  At income 0 the breakdown is not a single row, under
    either table. *)
Lemma zero_income_breakdown_not_one_row :
  ~ (exists r, snd (calculate_new_regime_2024_25 0) = [r]) /\
  ~ (exists r, snd (calculate_new_regime_2025_26 0) = [r]).
Proof.
  split; intros [r Hr]; vm_compute in Hr; discriminate Hr.
Qed.

(** C3, as amended.  In every call that reaches it, the bracket sweep
    generates the boundaries 0, 100,000, 200,000, ... up to and including the
    first boundary that is [>=] [int(income)], the income truncated to a
    whole number, and evaluates both regimes at each boundary value itself;
    for income 450,000 the boundaries are exactly the six values 0, 100,000,
    ..., 500,000. *)
Theorem bracket_sweep_boundaries :
  (forall income r,
     tax_calculator (Some income) = Rendered r ->
     exists m : nat,
       map (fun entry => fst (Income_Bracket entry)) (rep_bracket_savings r) =
         map (fun k => (Z.of_nat k * 100000)%Z) (seq 0 (S m)) /\
       (Z.of_nat m * 100000 - 100000 < py_int income
          <= Z.of_nat m * 100000)%Z) /\
  (forall income r,
     tax_calculator (Some income) = Rendered r ->
     Forall (fun entry =>
               let b := fst (Income_Bracket entry) in
               Income_Bracket entry = (b, (b + 100000)%Z) /\
               Tax_2024_25 entry
                 = fst (calculate_new_regime_2024_25 (inject_Z b)) /\
               Tax_2025_26 entry
                 = fst (calculate_new_regime_2025_26 (inject_Z b)) /\
               Savings entry = Tax_2024_25 entry - Tax_2025_26 entry)
            (rep_bracket_savings r)) /\
  (exists r,
     tax_calculator (Some 450000) = Rendered r /\
     map (fun entry => fst (Income_Bracket entry)) (rep_bracket_savings r) =
       [0; 100000; 200000; 300000; 400000; 500000]%Z).
Proof.
  split; [ | split].
  - intros income r Hr.
    destruct (tax_calculator_rendered income r Hr)
      as (Hinc & _ & _ & _ & _ & _ & _ & _ & ->).
    rewrite bracket_savings_boundaries. unfold income_brackets.
    apply range_brackets. apply py_int_nonneg. exact Hinc.
  - intros income r Hr.
    destruct (tax_calculator_rendered income r Hr)
      as (_ & _ & _ & _ & _ & _ & _ & _ & ->).
    apply bracket_savings_entries.
  - eexists. split; [vm_compute; reflexivity | ]. reflexivity.
Qed.

Lemma bracket_sweep_boundaries_witness :
  exists r,
    tax_calculator (Some 1500000) = Rendered r /\
    exists m : nat,
      map (fun entry => fst (Income_Bracket entry)) (rep_bracket_savings r) =
        map (fun k => (Z.of_nat k * 100000)%Z) (seq 0 (S m)) /\
      (Z.of_nat m * 100000 - 100000 < py_int 1500000
         <= Z.of_nat m * 100000)%Z.
Proof.
  eexists. split; [vm_compute; reflexivity | ].
  refine (proj1 bracket_sweep_boundaries 1500000 _ _).
  vm_compute. reflexivity.
Defined.

(** C3, counterexample.  The call with income 400,000.5 succeeds and its
    sweep stops at 400,000: no generated boundary is [>=] the income, so the
    first boundary [>=] income (500,000) is not included. *)
Lemma bracket_sweep_stops_below_fractional_income :
  exists r,
    tax_calculator (Some (800001 # 2)) = Rendered r /\
    map (fun entry => fst (Income_Bracket entry)) (rep_bracket_savings r) =
      [0; 100000; 200000; 300000; 400000]%Z /\
    ~ (exists entry,
         In entry (rep_bracket_savings r) /\
         (800001 # 2) <= inject_Z (fst (Income_Bracket entry))).
Proof.
  eexists. split; [vm_compute; reflexivity | ].
  split; [reflexivity | ].
  intros [entry [Hin Hle]]. cbn [rep_bracket_savings] in Hin.
  repeat (destruct Hin as [<- | Hin];
          [vm_compute in Hle; apply Hle; reflexivity | ]).
  destruct Hin.
Qed.

(** C4.  For every income [>= 0] and either slab table, the "Tax" column of
    the returned breakdown adds up to the returned total tax, and the total
    tax is not negative.  The sum and the total are built by the same
    additions in the same order, so they are equal on the nose. *)
Theorem breakdown_tax_sums_to_total (income : Q) :
  0 <= income ->
  (column_sum Tax (snd (calculate_new_regime_2024_25 income)) =
     fst (calculate_new_regime_2024_25 income) /\
   0 <= fst (calculate_new_regime_2024_25 income)) /\
  (column_sum Tax (snd (calculate_new_regime_2025_26 income)) =
     fst (calculate_new_regime_2025_26 income) /\
   0 <= fst (calculate_new_regime_2025_26 income)).
Proof.
  intros _.
  unfold calculate_new_regime_2024_25, calculate_new_regime_2025_26.
  repeat split.
  - apply calculate_tax_column.
  - apply calculate_tax_nonneg. exact slabs_2024_25_progressive.
  - apply calculate_tax_column.
  - apply calculate_tax_nonneg. exact slabs_2025_26_progressive.
Qed.

Lemma breakdown_tax_sums_to_total_witness :
  0 <= 1500000 /\
  column_sum Tax (snd (calculate_new_regime_2024_25 1500000)) =
    fst (calculate_new_regime_2024_25 1500000).
Proof.
  split; [discriminate | ].
  apply (breakdown_tax_sums_to_total 1500000). discriminate.
Defined.

(** C5.  Monotonicity: for incomes [0 <= income1 < income2] the total tax at
    [income1] is at most the total tax at [income2], under each regime. *)
Theorem total_tax_monotone (income1 income2 : Q) :
  0 <= income1 -> income1 < income2 ->
  fst (calculate_new_regime_2024_25 income1) <=
    fst (calculate_new_regime_2024_25 income2) /\
  fst (calculate_new_regime_2025_26 income1) <=
    fst (calculate_new_regime_2025_26 income2).
Proof.
  intros _ Hlt.
  unfold calculate_new_regime_2024_25, calculate_new_regime_2025_26.
  split.
  - apply calculate_tax_mono; [exact slabs_2024_25_progressive | ].
    apply py_max_mono. lra.
  - apply calculate_tax_mono; [exact slabs_2025_26_progressive | ].
    apply py_max_mono. lra.
Qed.

Lemma total_tax_monotone_witness :
  0 <= 500000 /\ 500000 < 1500000 /\
  fst (calculate_new_regime_2024_25 500000) <=
    fst (calculate_new_regime_2024_25 1500000).
Proof.
  split; [discriminate | ]. split; [reflexivity | ].
  apply (total_tax_monotone 500000 1500000); [discriminate | reflexivity].
Defined.

(** C6.  At income 1,500,000 the 2024-25 tax is 125,000, the 2025-26 tax is
    93,750, the savings are 31,250 and the recommendation is to switch to the
    2025-26 regime.  The slabs consume the taxable income 1,425,000 as the
    specification lists them (amount and tax per row, in lowest terms), and
    binary64 arithmetic yields the same three figures without rounding
    error. *)
Theorem comparison_at_1500000 :
  fst (calculate_new_regime_2024_25 1500000) == 125000 /\
  fst (calculate_new_regime_2025_26 1500000) == 93750 /\
  map (fun r => (Qred (Taxable_Amount r), Qred (Tax r)))
      (snd (calculate_new_regime_2024_25 1500000)) =
    [ (300000, 0); (400000, 20000); (300000, 30000); (200000, 30000);
      (225000, 45000) ] /\
  map (fun r => (Qred (Taxable_Amount r), Qred (Tax r)))
      (snd (calculate_new_regime_2025_26 1500000)) =
    [ (400000, 0); (400000, 20000); (400000, 40000); (225000, 33750) ] /\
  fst (Binary64.calculate_new_regime_2024_25 1500000%float) = 125000%float /\
  fst (Binary64.calculate_new_regime_2025_26 1500000%float) = 93750%float /\
  (fst (Binary64.calculate_new_regime_2024_25 1500000%float)
   - fst (Binary64.calculate_new_regime_2025_26 1500000%float))%float
    = 31250%float /\
  exists r,
    tax_calculator (Some 1500000) = Rendered r /\
    rep_old_tax r == 125000 /\
    rep_new_tax r == 93750 /\
    rep_savings r == 31250 /\
    rep_recommendation r = Switch_to_2025_26_Regime.
Proof.
  split; [reflexivity | ]. split; [reflexivity | ].
  split; [reflexivity | ]. split; [reflexivity | ].
  split; [reflexivity | ]. split; [reflexivity | ].
  split; [reflexivity | ].
  eexists. split; [vm_compute; reflexivity | ].
  split; [reflexivity | ]. split; [reflexivity | ].
  split; reflexivity.
Qed.

(** C7.  At the exemption boundary, income 75,000, the total tax is 0 under
    both regimes, in exact and in binary64 arithmetic: the taxable income is
    0 and no slab is entered. *)
Theorem exemption_boundary_tax_is_zero :
  calculate_new_regime_2024_25 75000 = (0, []) /\
  calculate_new_regime_2025_26 75000 = (0, []) /\
  Binary64.calculate_new_regime_2024_25 75000%float = (0%float, []) /\
  Binary64.calculate_new_regime_2025_26 75000%float = (0%float, []).
Proof. repeat split. Qed.

(** C8.  A missing ([None]) or negative income makes [tax_calculator] return
    at once with the error message, an outcome that carries no result; and
    conversely every call that gets past the check, and so reaches the tax
    computation, has an income that is present and not negative. *)
Theorem invalid_income_short_circuits (income : option Q) :
  (income = None \/ (exists i, income = Some i /\ i < 0) ->
   tax_calculator income = Invalid_income_input error_message) /\
  (tax_calculator income <> Invalid_income_input error_message ->
   exists i, income = Some i /\ 0 <= i).
Proof.
  split.
  - intros [-> | (i & -> & Hneg)]; cbn [tax_calculator].
    + reflexivity.
    + destruct (Qlt_le_dec i 0) as [_ | Hle]; [reflexivity | exfalso; lra].
  - intro Hrun. destruct income as [i | ]; cbn [tax_calculator] in Hrun.
    + exists i. split; [reflexivity | ].
      destruct (Qlt_le_dec i 0) as [Hneg | Hle]; [ | exact Hle].
      exfalso. apply Hrun. reflexivity.
    + exfalso. apply Hrun. reflexivity.
Qed.

Lemma invalid_income_short_circuits_witness :
  -1 < 0 /\
  tax_calculator (Some (-1)) = Invalid_income_input error_message /\
  tax_calculator None = Invalid_income_input error_message.
Proof.
  split; [reflexivity | ]. split.
  - apply (proj1 (invalid_income_short_circuits (Some (-1)))).
    right. exists (-1). split; reflexivity.
  - apply (proj1 (invalid_income_short_circuits None)).
    left. reflexivity.
Defined.

(** C9, as amended.  For every income from 0 to 10,000,000, the range the
    interface offers, the 2025-26 tax is at most the 2024-25 tax, so the
    savings are not negative; hence, in that range, the recommendation to
    stick to the 2024-25 regime is chosen only when the two taxes are equal.
    Binary64 evaluation agrees on every income of the slider. *)
Theorem savings_never_negative :
  (forall income,
     0 <= income -> income <= 10000000 ->
     fst (calculate_new_regime_2025_26 income) <=
       fst (calculate_new_regime_2024_25 income) /\
     0 <= fst (calculate_new_regime_2024_25 income)
          - fst (calculate_new_regime_2025_26 income) /\
     (recommend (fst (calculate_new_regime_2024_25 income)
                 - fst (calculate_new_regime_2025_26 income))
        = Stick_to_2024_25_Regime ->
      fst (calculate_new_regime_2024_25 income) ==
        fst (calculate_new_regime_2025_26 income)) /\
     (forall r,
        tax_calculator (Some income) = Rendered r ->
        0 <= rep_savings r /\
        (rep_recommendation r = Stick_to_2024_25_Regime ->
         rep_old_tax r == rep_new_tax r))) /\
  (forall k : nat,
     (k <= 200)%nat ->
     let income := float_of_Z (50000 * Z.of_nat k) in
     let old_tax := fst (Binary64.calculate_new_regime_2024_25 income) in
     let new_tax := fst (Binary64.calculate_new_regime_2025_26 income) in
     (new_tax <=? old_tax)%float = true /\
     (0 <=? old_tax - new_tax)%float = true /\
     (Binary64.recommend (old_tax - new_tax)%float
        = Stick_to_2024_25_Regime ->
      (old_tax =? new_tax)%float = true)).
Proof.
  split.
  - intros income _ _.
    assert (Hle : fst (calculate_new_regime_2025_26 income) <=
                  fst (calculate_new_regime_2024_25 income))
      by apply calculate_tax_2025_26_le_2024_25.
    assert (Hstick : forall a b : Q,
               b <= a ->
               recommend (a - b) = Stick_to_2024_25_Regime -> a == b).
    { intros a b Hab. unfold recommend.
      destruct (Qlt_le_dec 0 (a - b)); [discriminate | intros _; lra]. }
    split; [exact Hle | ]. split; [lra | ].
    split; [apply Hstick; exact Hle | ].
    intros r Hr.
    destruct (tax_calculator_rendered income r Hr)
      as (_ & _ & -> & -> & Hsav & -> & _).
    rewrite Hsav. split; [lra | apply Hstick; exact Hle].
  - intros k Hk.
    apply binary64_savings_ok_true.
    apply (proj1 (forallb_forall binary64_savings_ok slider_incomes)
             binary64_savings_ok_on_slider).
    apply slider_income_in. exact Hk.
Qed.

Lemma savings_never_negative_witness :
  0 <= 1500000 /\ 1500000 <= 10000000 /\
  fst (calculate_new_regime_2025_26 1500000) <=
    fst (calculate_new_regime_2024_25 1500000).
Proof.
  split; [discriminate | ]. split; [discriminate | ].
  exact (proj1 (proj1 savings_never_negative 1500000
                  ltac:(discriminate) ltac:(discriminate))).
Defined.

(** C9, counterexample.  At income 1e22 binary64 rounding makes the 2025-26
    tax (3e21) exceed the 2024-25 tax (2.9999999999999995e21): the savings
    are negative, -524288, and the recommendation is to stick to the 2024-25
    regime although the two taxes differ. *)
Lemma binary64_savings_negative_at_1e22 :
  (0 <=? 1e22)%float = true /\
  (fst (Binary64.calculate_new_regime_2024_25 1e22%float)
   <? fst (Binary64.calculate_new_regime_2025_26 1e22%float))%float = true /\
  (fst (Binary64.calculate_new_regime_2024_25 1e22%float)
   - fst (Binary64.calculate_new_regime_2025_26 1e22%float))%float
    = (-524288)%float /\
  Binary64.recommend
    (fst (Binary64.calculate_new_regime_2024_25 1e22%float)
     - fst (Binary64.calculate_new_regime_2025_26 1e22%float))%float
    = Stick_to_2024_25_Regime /\
  (fst (Binary64.calculate_new_regime_2024_25 1e22%float)
   =? fst (Binary64.calculate_new_regime_2025_26 1e22%float))%float = false.
Proof. vm_compute. repeat split. Qed.

(** C10, as amended.  For every income from 0 to 10,000,000 and either slab
    table the breakdown partitions the taxable income: the "Taxable Amount"
    column adds up to [max(income - 75,000, 0)]; and for every income
    [>= 0] every row has a strictly positive taxable amount.  Binary64
    evaluation agrees on every income of the slider. *)
Theorem breakdown_partitions_taxable_income :
  (forall income,
     0 <= income -> income <= 10000000 ->
     column_sum Taxable_Amount (snd (calculate_new_regime_2024_25 income))
       == Qmax (income - 75000) 0 /\
     column_sum Taxable_Amount (snd (calculate_new_regime_2025_26 income))
       == Qmax (income - 75000) 0) /\
  (forall income,
     0 <= income ->
     Forall (fun r => 0 < Taxable_Amount r)
            (snd (calculate_new_regime_2024_25 income)) /\
     Forall (fun r => 0 < Taxable_Amount r)
            (snd (calculate_new_regime_2025_26 income))) /\
  (forall k : nat,
     (k <= 200)%nat ->
     let income := float_of_Z (50000 * Z.of_nat k) in
     let taxable := Binary64.py_max (income - 75000)%float 0%float in
     binary64_partitions taxable
       (snd (Binary64.calculate_new_regime_2024_25 income)) = true /\
     binary64_partitions taxable
       (snd (Binary64.calculate_new_regime_2025_26 income)) = true).
Proof.
  split; [ | split].
  - intros income _ _.
    unfold calculate_new_regime_2024_25, calculate_new_regime_2025_26.
    rewrite <- py_max_Qmax.
    split; apply calculate_tax_partition;
      first [exact slabs_2024_25_unbounded | exact slabs_2025_26_unbounded
            | apply py_max_nonneg].
  - intros income _.
    unfold calculate_new_regime_2024_25, calculate_new_regime_2025_26.
    split; apply calculate_tax_amounts_pos;
      [exact slabs_2024_25_progressive | exact slabs_2025_26_progressive].
  - intros k Hk.
    apply binary64_partition_ok_true.
    apply (proj1 (forallb_forall binary64_partition_ok slider_incomes)
             binary64_partition_ok_on_slider).
    apply slider_income_in. exact Hk.
Qed.

Lemma breakdown_partitions_taxable_income_witness :
  0 <= 1500000 /\ 1500000 <= 10000000 /\
  column_sum Taxable_Amount (snd (calculate_new_regime_2024_25 1500000))
    == Qmax (1500000 - 75000) 0.
Proof.
  split; [discriminate | ]. split; [discriminate | ].
  exact (proj1 (proj1 breakdown_partitions_taxable_income 1500000
                  ltac:(discriminate) ltac:(discriminate))).
Defined.

(** C10, counterexample.  At income 2^58 = 288,231,475,663,339,584 the last
    row's amount, taxable income minus 1,500,000, is rounded, and in binary64
    the "Taxable Amount" column of the 2024-25 breakdown no longer adds up to
    the taxable income. *)
Lemma binary64_partition_breaks_at_2p58 :
  (0 <=? 288231475663339584)%float = true /\
  (Binary64.column_sum Binary64.Taxable_Amount
     (snd (Binary64.calculate_new_regime_2024_25 288231475663339584%float))
   =? Binary64.py_max (288231475663339584 - 75000)%float 0%float)%float
    = false /\
  (Binary64.py_max (288231475663339584 - 75000)%float 0%float
   <? Binary64.column_sum Binary64.Taxable_Amount
        (snd (Binary64.calculate_new_regime_2024_25
                288231475663339584%float)))%float
    = true.
Proof. vm_compute. repeat split. Qed.

(** * Further properties of the code *)

(** ** Splitting an income at a bound *)

Lemma py_min_split (income s : Q) :
  py_min income (Fin s) + py_max (income - s) 0 == income.
Proof.
  cbn [py_min]. unfold py_max.
  destruct (Qlt_le_dec s income), (Qlt_le_dec (income - s) 0); lra.
Qed.

Lemma py_max_above (a : Q) : 0 <= a -> py_max a 0 = a.
Proof.
  intro H. unfold py_max.
  destruct (Qlt_le_dec a 0); [exfalso; lra | reflexivity].
Qed.

Lemma py_max_below (a : Q) : a <= 0 -> py_max a 0 == 0.
Proof.
  intro H. unfold py_max. destruct (Qlt_le_dec a 0); lra.
Qed.

(** ** Bounds on the tax of any well-formed table *)

Section RateBound.

Variable r : Q.
Hypothesis r_nonneg : 0 <= r.

Lemma rates_at_most_cons (slab : bound) (rate : Q)
  (rest : list (bound * Q)) :
  rates_at_most r ((slab, rate) :: rest) = true ->
  rate <= r /\ rates_at_most r rest = true.
Proof.
  unfold rates_at_most. cbn [forallb snd]. intro H.
  apply andb_true_iff in H. destruct H as [Hrate Hrest].
  apply Qle_bool_iff in Hrate. auto.
Qed.

(** From lower bound [p] on, the loop adds at most [r] times what of
    [income] lies above [p]. *)
Lemma loop_tax_le (income : Q) (slabs : list (bound * Q)) :
  forall st p,
  prev_slab st = Fin p ->
  progressive (Fin p) slabs = true ->
  rates_at_most r slabs = true ->
  tax (fold_left (slab_step income) slabs st) <=
  tax st + r * py_max (income - p) 0.
Proof.
  induction slabs as [ | [slab rate] rest IH]; intros st p Hp Hwf Hr.
  - cbn [fold_left].
    pose proof (Qmult_le_0_compat r (py_max (income - p) 0) r_nonneg
                  (py_max_nonneg (income - p))) as Hprod.
    lra.
  - apply progressive_cons in Hwf. destruct Hwf as (Hb & Hrate & Hrest).
    apply rates_at_most_cons in Hr. destruct Hr as [Hle Hr].
    destruct (Qlt_le_dec p income) as [Hlt | Hge].
    + rewrite (run_enter income p st slab rate rest Hp Hlt).
      destruct slab as [s | ].
      * cbn in Hb. destruct (Qlt_le_dec p s) as [Hps | ]; [ | discriminate].
        eapply Qle_trans;
          [apply (IH (entered income st p (Fin s) rate) s eq_refl Hrest Hr) | ].
        cbn [tax entered].
        rewrite (py_max_above (income - p)) by lra.
        assert (He : py_max (income - s) 0 == income - py_min income (Fin s))
          by (pose proof (py_min_split income s); lra).
        rewrite He.
        assert (Hm : p <= py_min income (Fin s)).
        { cbn [py_min]. destruct (Qlt_le_dec s income); lra. }
        pose proof (Qmult_le_0_compat (py_min income (Fin s) - p) (r - rate)
                      ltac:(lra) ltac:(lra)) as Hprod.
        lra.
      * rewrite run_inf by reflexivity.
        cbn [tax entered py_min].
        rewrite (py_max_above (income - p)) by lra.
        pose proof (Qmult_le_0_compat (income - p) (r - rate)
                      ltac:(lra) ltac:(lra)) as Hprod.
        lra.
    + rewrite (run_stop income p st _ Hp Hge).
      pose proof (Qmult_le_0_compat r (py_max (income - p) 0) r_nonneg
                    (py_max_nonneg (income - p))) as Hprod.
      lra.
Qed.

End RateBound.

Lemma slabs_2024_25_rates : rates_at_most 0.30 slabs_2024_25 = true.
Proof. reflexivity. Qed.

Lemma slabs_2025_26_rates : rates_at_most 0.30 slabs_2025_26 = true.
Proof. reflexivity. Qed.

(** ** The rows of the breakdown *)

(** The rows the loop appends are those of the next slabs of the table, in
    order and without a gap. *)
Lemma loop_rows (income : Q) (slabs : list (bound * Q)) :
  forall st, exists rows : list row,
  breakdown (fold_left (slab_step income) slabs st) = breakdown st ++ rows /\
  map (fun r => (snd (Slab_Range r), Rate r)) rows =
    firstn (List.length rows) slabs /\
  map (fun r => fst (Slab_Range r)) rows =
    firstn (List.length rows) (prev_slab st :: map fst slabs) /\
  Forall (row_of_income income) rows.
Proof.
  induction slabs as [ | [slab rate] rest IH]; intro st.
  - exists []. cbn. rewrite app_nil_r. repeat split. constructor.
  - destruct (slab_step_cases income st slab rate)
      as [(p & Hp & Hlt & Hstep) | [Hgt Hstep]].
    + cbn [fold_left]. rewrite Hstep.
      destruct (IH (entered income st p slab rate))
        as (rows & Hrows & Hupper & Hlower & Hall).
      exists ({| Slab_Range := (Fin p, slab);
                 Taxable_Amount := py_min income slab - p;
                 Rate := rate;
                 Tax := (py_min income slab - p) * rate |} :: rows).
      split; [ | split; [ | split]].
      * rewrite Hrows. cbn [breakdown entered].
        rewrite <- app_assoc. reflexivity.
      * cbn [map List.length firstn Slab_Range Rate snd]. rewrite Hupper.
        reflexivity.
      * cbn [map List.length firstn Slab_Range fst]. rewrite Hlower, Hp.
        reflexivity.
      * constructor; [ | exact Hall].
        exists p. cbn. repeat split. exact Hlt.
    + rewrite loop_skip by exact Hgt.
      exists []. cbn. rewrite app_nil_r. repeat split. constructor.
Qed.

(** ** Closed forms on the two tables *)

(** The savings follow [savings_curve]. *)
Lemma savings_closed_form (taxable_income : Q) :
  fst (calculate_tax taxable_income slabs_2024_25)
  - fst (calculate_tax taxable_income slabs_2025_26)
  == savings_curve taxable_income.
Proof.
  unfold calculate_tax, slabs_2024_25, slabs_2025_26, init_state,
    savings_curve, clamp.
  cbn [fst].
  destruct (Qlt_le_dec 0 taxable_income); [ | walk_slabs; lra].
  destruct (Qlt_le_dec 300000 taxable_income); [ | walk_slabs; lra].
  destruct (Qlt_le_dec 400000 taxable_income); [ | walk_slabs; lra].
  destruct (Qlt_le_dec 700000 taxable_income); [ | walk_slabs; lra].
  destruct (Qlt_le_dec 800000 taxable_income); [ | walk_slabs; lra].
  destruct (Qlt_le_dec 1000000 taxable_income); [ | walk_slabs; lra].
  destruct (Qlt_le_dec 1200000 taxable_income); [ | walk_slabs; lra].
  destruct (Qlt_le_dec 1500000 taxable_income); [ | walk_slabs; lra].
  destruct (Qlt_le_dec 1600000 taxable_income); [ | walk_slabs; lra].
  destruct (Qlt_le_dec 2000000 taxable_income); [ | walk_slabs; lra].
  destruct (Qlt_le_dec 2400000 taxable_income); walk_slabs; lra.
Qed.

Lemma py_min_at_least (t c : Q) : c <= t -> py_min t (Fin c) == c.
Proof.
  intro H. cbn [py_min]. destruct (Qlt_le_dec c t); lra.
Qed.

Lemma clamp_mono (t1 t2 lo hi : Q) :
  lo <= hi -> t1 <= t2 -> clamp t1 lo hi <= clamp t2 lo hi.
Proof.
  intros Hb Ht. unfold clamp. cbn [py_min].
  destruct (Qlt_le_dec hi t1), (Qlt_le_dec lo t1),
    (Qlt_le_dec hi t2), (Qlt_le_dec lo t2); lra.
Qed.

Lemma clamp_range (t lo hi : Q) :
  lo <= hi -> 0 <= clamp t lo hi <= hi - lo.
Proof.
  intro Hb. unfold clamp. cbn [py_min].
  destruct (Qlt_le_dec hi t), (Qlt_le_dec lo t); lra.
Qed.

Lemma savings_curve_mono (t1 t2 : Q) :
  t1 <= t2 -> savings_curve t1 <= savings_curve t2.
Proof.
  intro Ht. unfold savings_curve.
  pose proof (clamp_mono t1 t2 300000 400000 ltac:(lra) Ht).
  pose proof (clamp_mono t1 t2 700000 800000 ltac:(lra) Ht).
  pose proof (clamp_mono t1 t2 1000000 1500000 ltac:(lra) Ht).
  pose proof (clamp_mono t1 t2 1500000 1600000 ltac:(lra) Ht).
  pose proof (clamp_mono t1 t2 1600000 2000000 ltac:(lra) Ht).
  pose proof (clamp_mono t1 t2 2000000 2400000 ltac:(lra) Ht).
  lra.
Qed.

Lemma savings_curve_cap (t : Q) :
  savings_curve t <= 110000 /\ (savings_curve t == 110000 <-> 2400000 <= t).
Proof.
  unfold savings_curve.
  pose proof (clamp_range t 300000 400000 ltac:(lra)).
  pose proof (clamp_range t 700000 800000 ltac:(lra)).
  pose proof (clamp_range t 1000000 1500000 ltac:(lra)).
  pose proof (clamp_range t 1500000 1600000 ltac:(lra)).
  pose proof (clamp_range t 1600000 2000000 ltac:(lra)).
  pose proof (clamp_range t 2000000 2400000 ltac:(lra)).
  split; [lra | ].
  split.
  - intro Heq.
    assert (Hlast : clamp t 2000000 2400000 == 400000) by lra.
    unfold clamp in Hlast. cbn [py_min] in Hlast.
    destruct (Qlt_le_dec 2400000 t), (Qlt_le_dec 2000000 t); lra.
  - intro Hge. unfold clamp.
    rewrite !py_min_at_least by lra. lra.
Qed.

Lemma savings_curve_pos (t : Q) : 0 < savings_curve t <-> 300000 < t.
Proof.
  unfold savings_curve.
  pose proof (clamp_range t 300000 400000 ltac:(lra)).
  pose proof (clamp_range t 700000 800000 ltac:(lra)).
  pose proof (clamp_range t 1000000 1500000 ltac:(lra)).
  pose proof (clamp_range t 1500000 1600000 ltac:(lra)).
  pose proof (clamp_range t 1600000 2000000 ltac:(lra)).
  pose proof (clamp_range t 2000000 2400000 ltac:(lra)).
  split.
  - intro Hpos. destruct (Qlt_le_dec 300000 t) as [Hlt | Hle]; [exact Hlt | ].
    exfalso. revert Hpos. unfold clamp. cbn [py_min].
    repeat match goal with
           | |- context [Qlt_le_dec ?c t] =>
               destruct (Qlt_le_dec c t); [exfalso; lra | ]
           end.
    lra.
  - intro Hlt.
    assert (Hfirst : 0 < clamp t 300000 400000).
    { unfold clamp. cbn [py_min].
      destruct (Qlt_le_dec 400000 t), (Qlt_le_dec 300000 t); lra. }
    lra.
Qed.

(** ** The percentage of a successful call *)

Lemma tax_calculator_percent (income : Q) (r : report) :
  tax_calculator (Some income) = Rendered r ->
  rep_savings_percent r = rep_savings r / rep_old_tax r * 100.
Proof.
  unfold tax_calculator.
  destruct (Qlt_le_dec income 0) as [Hneg | Hle]; [discriminate | ].
  destruct (calculate_new_regime_2024_25 income) as [old_tax old_df].
  destruct (calculate_new_regime_2025_26 income) as [new_tax new_df].
  unfold py_div.
  destruct (Qeq_bool old_tax 0); [discriminate | ].
  intro Hr. injection Hr as <-. reflexivity.
Qed.

Lemma tax_calculator_renders (income : Q) :
  0 <= income -> ~ fst (calculate_new_regime_2024_25 income) == 0 ->
  exists r, tax_calculator (Some income) = Rendered r.
Proof.
  intros Hinc Hnz. unfold tax_calculator.
  destruct (Qlt_le_dec income 0) as [Hneg | _]; [exfalso; lra | ].
  destruct (calculate_new_regime_2024_25 income) as [old_tax old_df].
  destruct (calculate_new_regime_2025_26 income) as [new_tax new_df].
  cbn [fst] in Hnz. unfold py_div.
  destruct (Qeq_bool old_tax 0) eqn:Hz.
  - exfalso. apply Hnz. apply Qeq_bool_iff. exact Hz.
  - eexists. reflexivity.
Qed.

(** ** The bracket sweep *)

Lemma py_int_floor (x : Q) : 0 <= x -> py_int x = Qfloor x.
Proof.
  intro H. destruct x as [n d]. unfold py_int, Qfloor. cbn [Qnum Qden].
  apply Z.quot_div_nonneg; [ | lia].
  unfold Qle in H. cbn in H. lia.
Qed.

(** A monotone function of the bracket gives a sorted column. *)
Lemma sweep_column_sorted (f : Z -> Q) :
  (forall a b, (a <= b)%Z -> f a <= f b) ->
  forall n s,
  StronglySorted Qle
    (map (fun i => f (0 + Z.of_nat i * 100000)%Z) (seq s n)).
Proof.
  intros Hf. induction n as [ | n IH]; intro s; cbn [seq map].
  - constructor.
  - constructor; [apply IH | ].
    apply Forall_forall. intros y Hy.
    apply in_map_iff in Hy. destruct Hy as (i & <- & Hi).
    apply in_seq in Hi. apply Hf. lia.
Qed.

Lemma regime_2024_25_mono_Z (a b : Z) :
  (a <= b)%Z ->
  fst (calculate_new_regime_2024_25 (inject_Z a)) <=
  fst (calculate_new_regime_2024_25 (inject_Z b)).
Proof.
  intro H. unfold calculate_new_regime_2024_25.
  apply calculate_tax_mono; [exact slabs_2024_25_progressive | ].
  apply py_max_mono. rewrite Zle_Qle in H. lra.
Qed.

Lemma regime_2025_26_mono_Z (a b : Z) :
  (a <= b)%Z ->
  fst (calculate_new_regime_2025_26 (inject_Z a)) <=
  fst (calculate_new_regime_2025_26 (inject_Z b)).
Proof.
  intro H. unfold calculate_new_regime_2025_26.
  apply calculate_tax_mono; [exact slabs_2025_26_progressive | ].
  apply py_max_mono. rewrite Zle_Qle in H. lra.
Qed.

Lemma regime_savings_mono (income1 income2 : Q) :
  income1 <= income2 ->
  fst (calculate_new_regime_2024_25 income1)
  - fst (calculate_new_regime_2025_26 income1) <=
  fst (calculate_new_regime_2024_25 income2)
  - fst (calculate_new_regime_2025_26 income2).
Proof.
  intro H. unfold calculate_new_regime_2024_25, calculate_new_regime_2025_26.
  rewrite !savings_closed_form.
  apply savings_curve_mono. apply py_max_mono. lra.
Qed.

Lemma savings_capped_at_110000_aux (income : Q) :
  fst (calculate_new_regime_2024_25 income)
  - fst (calculate_new_regime_2025_26 income) <= 110000.
Proof.
  unfold calculate_new_regime_2024_25, calculate_new_regime_2025_26.
  rewrite savings_closed_form. apply savings_curve_cap.
Qed.

(** ** The rate bound on [calculate_tax] *)

Lemma calculate_tax_le (r t : Q) (slabs : list (bound * Q)) :
  0 <= r -> 0 <= t ->
  progressive (Fin 0) slabs = true -> rates_at_most r slabs = true ->
  fst (calculate_tax t slabs) <= r * t.
Proof.
  intros Hr Ht Hwf Hrates. unfold calculate_tax. cbn [fst].
  pose proof (loop_tax_le r Hr t slabs init_state 0 eq_refl Hwf Hrates) as H.
  rewrite (py_max_above (t - 0)) in H by lra.
  cbn [tax init_state] in H. lra.
Qed.

(** ** Properties of the tax functions *)

(** X1.  The breakdown is empty, and the tax exactly 0, precisely for the
    incomes up to the deduction of 75,000, negative incomes included: the
    regime functions themselves reject nothing. *)
Theorem no_rows_up_to_the_deduction (income : Q) :
  (income <= 75000 <-> calculate_new_regime_2024_25 income = (0, [])) /\
  (income <= 75000 <-> calculate_new_regime_2025_26 income = (0, [])).
Proof.
  assert (Hstop : forall slabs, income <= 75000 ->
            calculate_tax (py_max (income - 75000) 0) slabs = (0, [])).
  { intros slabs Hle. unfold calculate_tax.
    rewrite (run_stop _ 0 init_state slabs eq_refl); [reflexivity | ].
    unfold py_max. destruct (Qlt_le_dec (income - 75000) 0); lra. }
  assert (Hrow : forall s rate rest, 75000 < income ->
            calculate_tax (py_max (income - 75000) 0) ((Fin s, rate) :: rest)
            <> (0, [])).
  { intros s rate rest Hlt Heq.
    destruct (calculate_tax_first_row (py_max (income - 75000) 0) s rate rest)
      as [rows Hrows].
    - rewrite py_max_above by lra. lra.
    - rewrite Heq in Hrows. discriminate Hrows. }
  unfold calculate_new_regime_2024_25, calculate_new_regime_2025_26.
  split; (split; [apply Hstop | ]); intro Heq;
    destruct (Qlt_le_dec 75000 income) as [Hlt | Hle]; try exact Hle;
    exfalso; revert Heq; apply Hrow; exact Hlt.
Qed.

(** X2.  For every income up to 10,000,000 the tax is at most 30% of the
    taxable income [max(income - 75,000, 0)], under either regime. *)
Theorem tax_at_most_30_percent (income : Q) :
  income <= 10000000 ->
  fst (calculate_new_regime_2024_25 income)
    <= 0.30 * Qmax (income - 75000) 0 /\
  fst (calculate_new_regime_2025_26 income)
    <= 0.30 * Qmax (income - 75000) 0.
Proof.
  intros _.
  unfold calculate_new_regime_2024_25, calculate_new_regime_2025_26.
  rewrite <- py_max_Qmax.
  pose proof (py_max_nonneg (income - 75000)) as Ht.
  split; apply calculate_tax_le;
    first [lra | exact slabs_2024_25_progressive
          | exact slabs_2025_26_progressive | reflexivity].
Qed.

Lemma tax_at_most_30_percent_witness :
  1500000 <= 10000000 /\
  fst (calculate_new_regime_2024_25 1500000)
    <= 0.30 * Qmax (1500000 - 75000) 0.
Proof.
  split; [discriminate | ].
  exact (proj1 (tax_at_most_30_percent 1500000 ltac:(discriminate))).
Defined.

(** X6.  Whatever the table, the rows of the breakdown are the first slabs of
    the table, in order: each row carries its slab's upper bound and rate,
    starts where the previous one ends (the first at 0), starts below the
    income, and taxes what of the income lies in it at that rate. *)
Theorem breakdown_rows_follow_the_table (income : Q)
  (slabs : list (bound * Q)) :
  let rows := snd (calculate_tax income slabs) in
  map (fun r => (snd (Slab_Range r), Rate r)) rows =
    firstn (List.length rows) slabs /\
  map (fun r => fst (Slab_Range r)) rows =
    firstn (List.length rows) (Fin 0 :: map fst slabs) /\
  Forall (row_of_income income) rows.
Proof.
  unfold calculate_tax. cbn [snd].
  destruct (loop_rows income slabs init_state)
    as (rows & Hrows & Hupper & Hlower & Hall).
  cbn [breakdown init_state app prev_slab] in Hrows, Hlower.
  rewrite Hrows. cbn zeta. auto.
Qed.

(** ** Properties of [tax_calculator] *)

(** X9.  A call with an income succeeds, returning its outputs, exactly when
    the income is above 375,000; at or below it the call ends in the error
    message (negative income) or in the uncaught [ZeroDivisionError]. *)
Theorem tax_calculator_succeeds_iff (income : Q) :
  (exists r, tax_calculator (Some income) = Rendered r) <-> 375000 < income.
Proof.
  assert (Hzero : fst (calculate_new_regime_2024_25 income) == 0 <->
                  py_max (income - 75000) 0 <= 300000)
    by apply calculate_tax_2024_25_zero.
  split.
  - intros [r Hr].
    destruct (tax_calculator_rendered income r Hr) as (Hinc & Hnz & _).
    destruct (Qlt_le_dec 375000 income) as [Hlt | Hle]; [exact Hlt | ].
    exfalso. apply Hnz. apply Hzero.
    unfold py_max. destruct (Qlt_le_dec (income - 75000) 0); lra.
  - intro Hlt. apply tax_calculator_renders; [lra | ].
    intro Hz. apply Hzero in Hz.
    rewrite py_max_above in Hz by lra. lra.
Qed.

(** X10.  For incomes up to 10,000,000 every successful call recommends the
    switch to the 2025-26 regime: "Stick to 2024-25 Regime" is never shown.
    Its savings are positive and its percentage lies in (0, 100]. *)
Theorem successful_call_always_switches (income : Q) (r : report) :
  income <= 10000000 ->
  tax_calculator (Some income) = Rendered r ->
  rep_recommendation r = Switch_to_2025_26_Regime /\
  0 < rep_savings r /\
  0 < rep_savings_percent r <= 100.
Proof.
  intros _ Hr.
  pose proof (tax_calculator_percent income r Hr) as Hpct.
  destruct (tax_calculator_rendered income r Hr)
    as (Hinc & Hnz & Hold & Hnew & Hsav & Hrec & _).
  assert (Hpos : 0 < rep_savings r).
  { rewrite Hsav.
    unfold calculate_new_regime_2024_25, calculate_new_regime_2025_26.
    rewrite savings_closed_form. apply savings_curve_pos.
    destruct (Qlt_le_dec 300000 (py_max (income - 75000) 0))
      as [Hlt | Hle]; [exact Hlt | ].
    exfalso. apply Hnz. apply calculate_tax_2024_25_zero. exact Hle. }
  assert (Hnew0 : 0 <= rep_new_tax r).
  { rewrite Hnew. apply calculate_tax_nonneg.
    exact slabs_2025_26_progressive. }
  assert (Hold0 : 0 < rep_old_tax r).
  { rewrite Hsav, <- Hold, <- Hnew in Hpos. lra. }
  assert (Hshare : rep_savings r <= rep_old_tax r).
  { rewrite Hsav, <- Hold, <- Hnew. lra. }
  split.
  { rewrite Hrec. unfold recommend.
    destruct (Qlt_le_dec 0 (rep_savings r)); [reflexivity | exfalso; lra]. }
  split; [exact Hpos | ].
  assert (Hlo : 0 < rep_savings r / rep_old_tax r)
    by (apply Qlt_shift_div_l; lra).
  assert (Hhi : rep_savings r / rep_old_tax r <= 1)
    by (apply Qle_shift_div_r; lra).
  rewrite Hpct. lra.
Qed.

Lemma successful_call_always_switches_witness :
  1500000 <= 10000000 /\
  exists r,
    tax_calculator (Some 1500000) = Rendered r /\
    rep_recommendation r = Switch_to_2025_26_Regime.
Proof.
  split; [discriminate | ].
  eexists. split; [vm_compute; reflexivity | ].
  refine (proj1 (successful_call_always_switches 1500000 _
                   ltac:(discriminate) _)).
  vm_compute. reflexivity.
Defined.

(** ** Properties of the bracket sweep *)

(** X11.  Along the sweep the three columns never decrease: the 2024-25 tax,
    the 2025-26 tax and the savings; and every savings entry lies between 0
    and 110,000. *)
Theorem sweep_columns_sorted (income : Q) :
  StronglySorted Qle (map Tax_2024_25 (bracket_savings income)) /\
  StronglySorted Qle (map Tax_2025_26 (bracket_savings income)) /\
  StronglySorted Qle (map Savings (bracket_savings income)) /\
  Forall (fun entry => 0 <= Savings entry <= 110000)
         (bracket_savings income).
Proof.
  unfold bracket_savings, income_brackets, range.
  rewrite !map_map. cbn [Tax_2024_25 Tax_2025_26 Savings].
  split; [ | split; [ | split]].
  - apply (sweep_column_sorted
             (fun b => fst (calculate_new_regime_2024_25 (inject_Z b)))).
    apply regime_2024_25_mono_Z.
  - apply (sweep_column_sorted
             (fun b => fst (calculate_new_regime_2025_26 (inject_Z b)))).
    apply regime_2025_26_mono_Z.
  - apply (sweep_column_sorted
             (fun b => fst (calculate_new_regime_2024_25 (inject_Z b))
                       - fst (calculate_new_regime_2025_26 (inject_Z b)))).
    intros a b Hab. apply regime_savings_mono.
    rewrite Zle_Qle in Hab. exact Hab.
  - apply Forall_forall. intros entry Hin.
    apply in_map_iff in Hin. destruct Hin as (i & <- & _).
    cbn [Savings]. split.
    + pose proof (calculate_tax_2025_26_le_2024_25
                    (py_max (inject_Z (0 + Z.of_nat i * 100000) - 75000) 0))
        as Hle.
      unfold calculate_new_regime_2024_25, calculate_new_regime_2025_26.
      lra.
    + apply savings_capped_at_110000_aux.
Qed.

(** X12.  For an income [>= 0] the sweep is not empty, starts at bracket 0
    and contains the bracket [b, b + 100,000) in which the income lies. *)
Theorem sweep_contains_the_income (income : Q) :
  0 <= income ->
  (exists rest,
     map Income_Bracket (bracket_savings income) = (0, 100000)%Z :: rest) /\
  (exists entry,
     In entry (bracket_savings income) /\
     inject_Z (fst (Income_Bracket entry)) <= income /\
     income < inject_Z (snd (Income_Bracket entry)) /\
     snd (Income_Bracket entry) = (fst (Income_Bracket entry) + 100000)%Z).
Proof.
  intro Hinc.
  pose proof (py_int_nonneg income Hinc) as Hn.
  pose proof (Qfloor_le income) as Hfl.
  pose proof (Qlt_floor income) as Hfu.
  rewrite <- (py_int_floor income Hinc) in Hfl, Hfu.
  set (n := py_int income) in *.
  assert (Hcount : exists c, Z.to_nat ((n + 100000 - 0 + 100000 - 1) / 100000)
                             = S c /\ (Z.to_nat (n / 100000) <= c)%nat).
  { exists (Z.to_nat ((n + 99999) / 100000)).
    replace (n + 100000 - 0 + 100000 - 1)%Z
      with ((n + 99999) + 1 * 100000)%Z by lia.
    rewrite Z.div_add by lia.
    assert (0 <= n / 100000 <= (n + 99999) / 100000)%Z.
    { split; [apply Z.div_pos; lia | apply Z.div_le_mono; lia]. }
    split; lia. }
  destruct Hcount as (c & Hc & Hk).
  unfold bracket_savings, income_brackets, range. fold n. rewrite Hc.
  split.
  - cbn [seq map]. eexists. reflexivity.
  - set (b := (n / 100000 * 100000)%Z).
    assert (Hb : (b <= n < b + 100000)%Z).
    { unfold b.
      pose proof (Z.div_mod n 100000 ltac:(lia)) as Hdm.
      pose proof (Z.mod_pos_bound n 100000 ltac:(lia)) as Hmod.
      lia. }
    eexists. split.
    + apply in_map. apply in_map_iff.
      exists (Z.to_nat (n / 100000)). split; [reflexivity | ].
      apply in_seq. lia.
    + cbn [Income_Bracket fst snd].
      replace (0 + Z.of_nat (Z.to_nat (n / 100000)) * 100000)%Z with b
        by (unfold b; rewrite Z2Nat.id by (apply Z.div_pos; lia); lia).
      destruct Hb as [Hb1 Hb2].
      assert (Hb3 : (n + 1 <= b + 100000)%Z) by lia.
      rewrite Zle_Qle in Hb1, Hb3.
      repeat split; lra.
Qed.

Lemma sweep_contains_the_income_witness :
  0 <= 250000 /\
  exists entry,
    In entry (bracket_savings 250000) /\
    inject_Z (fst (Income_Bracket entry)) <= 250000 /\
    250000 < inject_Z (snd (Income_Bracket entry)) /\
    snd (Income_Bracket entry) = (fst (Income_Bracket entry) + 100000)%Z.
Proof.
  split; [discriminate | ].
  apply (proj2 (sweep_contains_the_income 250000 ltac:(discriminate))).
Defined.

(** ** Exact and binary64 arithmetic on the slider *)

Lemma binary64_agrees_on_slider : forallb binary64_agrees slider_incomes = true.
Proof. vm_compute. reflexivity. Qed.

Lemma binary64_agrees_true (income : Z) :
  binary64_agrees income = true ->
  fst (calculate_new_regime_2024_25 (inject_Z income))
    == inject_Z (py_int (fst (calculate_new_regime_2024_25 (inject_Z income))))
  /\
  fst (calculate_new_regime_2025_26 (inject_Z income))
    == inject_Z (py_int (fst (calculate_new_regime_2025_26 (inject_Z income))))
  /\
  (fst (Binary64.calculate_new_regime_2024_25 (float_of_Z income))
   =? float_of_Z
        (py_int (fst (calculate_new_regime_2024_25 (inject_Z income)))))%float
    = true /\
  (fst (Binary64.calculate_new_regime_2025_26 (float_of_Z income))
   =? float_of_Z
        (py_int (fst (calculate_new_regime_2025_26 (inject_Z income)))))%float
    = true.
Proof.
  unfold binary64_agrees.
  generalize (fst (calculate_new_regime_2024_25 (inject_Z income))).
  generalize (fst (calculate_new_regime_2025_26 (inject_Z income))).
  generalize (fst (Binary64.calculate_new_regime_2024_25 (float_of_Z income))).
  generalize (fst (Binary64.calculate_new_regime_2025_26 (float_of_Z income))).
  intros fb fa b a H.
  apply andb_true_iff in H. destruct H as [H H4].
  apply andb_true_iff in H. destruct H as [H H3].
  apply andb_true_iff in H. destruct H as [H1 H2].
  apply Qeq_bool_iff in H1. apply Qeq_bool_iff in H2.
  auto.
Qed.

(** X13.  On every income the slider offers (0 to 10,000,000 in steps of
    50,000) both taxes are whole numbers, and computing them in binary64
    arithmetic yields exactly these numbers: no rounding error reaches the
    result. *)
Theorem binary64_exact_on_slider (k : nat) :
  (k <= 200)%nat ->
  let income := (50000 * Z.of_nat k)%Z in
  let old_tax := fst (calculate_new_regime_2024_25 (inject_Z income)) in
  let new_tax := fst (calculate_new_regime_2025_26 (inject_Z income)) in
  old_tax == inject_Z (py_int old_tax) /\
  new_tax == inject_Z (py_int new_tax) /\
  (fst (Binary64.calculate_new_regime_2024_25 (float_of_Z income))
   =? float_of_Z (py_int old_tax))%float = true /\
  (fst (Binary64.calculate_new_regime_2025_26 (float_of_Z income))
   =? float_of_Z (py_int new_tax))%float = true.
Proof.
  intro Hk. intros income old_tax new_tax.
  apply binary64_agrees_true.
  apply (proj1 (forallb_forall binary64_agrees slider_incomes)
           binary64_agrees_on_slider).
  unfold slider_incomes. apply in_map_iff.
  exists k. split; [reflexivity | apply in_seq; lia].
Qed.

Lemma binary64_exact_on_slider_witness :
  (30 <= 200)%nat /\
  (fst (Binary64.calculate_new_regime_2024_25 (float_of_Z 1500000))
   =? float_of_Z
        (py_int (fst (calculate_new_regime_2024_25 (inject_Z 1500000)))))%float
  = true.
Proof.
  split; [lia | ].
  apply (binary64_exact_on_slider 30). lia.
Defined.

(** ** Slabs after the unbounded one *)

(** After a table with an unbounded slab no further slab can be entered. *)
Lemma loop_ends_closed (income : Q) (slabs : list (bound * Q)) :
  unbounded slabs = true ->
  forall st,
  py_gt income (prev_slab (fold_left (slab_step income) slabs st)) = false.
Proof.
  induction slabs as [ | [slab rate] rest IH]; intros Hunb st.
  - discriminate.
  - destruct (slab_step_cases income st slab rate)
      as [(p & Hp & Hlt & Hstep) | [Hgt Hstep]].
    + cbn [fold_left]. rewrite Hstep. destruct slab as [s | ].
      * apply IH. exact Hunb.
      * rewrite run_inf by reflexivity. reflexivity.
    + rewrite loop_skip by exact Hgt. exact Hgt.
Qed.

(** X14.  Whatever is listed after a table that has an unbounded slab is
    never used: the result is that of the table alone, for every income. *)
Theorem slabs_after_unbounded_are_ignored (income : Q)
  (slabs extra : list (bound * Q)) :
  unbounded slabs = true ->
  calculate_tax income (slabs ++ extra) = calculate_tax income slabs.
Proof.
  intro Hunb. unfold calculate_tax.
  rewrite fold_left_app.
  rewrite (loop_skip income extra) by (apply loop_ends_closed; exact Hunb).
  reflexivity.
Qed.

Lemma slabs_after_unbounded_are_ignored_witness :
  unbounded slabs_2024_25 = true /\
  calculate_tax 5000000 (slabs_2024_25 ++ [(Fin 9000000, 0.40)]) =
  calculate_tax 5000000 slabs_2024_25.
Proof.
  split; [reflexivity | ].
  apply (slabs_after_unbounded_are_ignored 5000000 slabs_2024_25).
  reflexivity.
Defined.
